(** * request-decompressor: the ServeHTTP middleware of decompressor.go

    A shallow embedding of [Middleware.ServeHTTP] and [Middleware.Provision]
    together with the properties of the handler: pass-through of requests
    without a [Content-Encoding] header, the decode-and-forward path, the
    rejection paths and the bookkeeping of [DecompressionMetrics]. *)

From Stdlib Require Import ZArith String Ascii List PrimFloat.
From stdpp Require Import base gmap strings list.

Local Open Scope Z_scope.
Local Open Scope string_scope.

(** ** Go values *)

(** A [[]byte]. *)
Abbreviation bytes := (list Byte.byte).

(** A non-nil Go [error] produced by a library (io, compress/gzip,
    compress/bzip2, zstd, fmt.Errorf): the value is identified with its
    message.  A nil error is [None] in an [option error]. *)
Abbreviation error := string (only parsing).

(** [int64] arithmetic: [atomic.AddInt64] wraps around in two's complement. *)
Definition wrap64 (z : Z) : Z := (z + 2 ^ 63) mod 2 ^ 64 - 2 ^ 63.

Definition atomic_AddInt64 (val delta : Z) : Z := wrap64 (val + delta).

(** ** strings.ToLower

    Go's [strings.ToLower] scans the bytes of the string.  When every byte is
    below [utf8.RuneSelf] (0x80) it returns the string itself if there is no
    upper-case ASCII letter, and otherwise the string with ['A'..'Z'] moved
    to ['a'..'z'].  A string with a byte at or above 0x80 is handed to
    [strings.Map(unicode.ToLower, s)], which lives in the Unicode tables of
    the Go library and is kept as the parameter [unicodeLower]. *)
Module GoStrings.

Definition isUpper (c : ascii) : bool :=
  (65 <=? N_of_ascii c)%N && (N_of_ascii c <=? 90)%N.

Definition lowerByte (c : ascii) : ascii :=
  if isUpper c then ascii_of_N (N_of_ascii c + 32) else c.

Fixpoint isASCII (s : string) : bool :=
  match s with
  | EmptyString => true
  | String c s' => (N_of_ascii c <? 128)%N && isASCII s'
  end.

Fixpoint hasUpper (s : string) : bool :=
  match s with
  | EmptyString => false
  | String c s' => isUpper c || hasUpper s'
  end.

Fixpoint mapBytes (f : ascii -> ascii) (s : string) : string :=
  match s with
  | EmptyString => EmptyString
  | String c s' => String (f c) (mapBytes f s')
  end.

Definition ToLower (unicodeLower : string -> string) (s : string) : string :=
  if isASCII s then
    if hasUpper s then mapBytes lowerByte s else s
  else unicodeLower s.

End GoStrings.

(** ** http.Header

    [http.Header] is a [map[string][]string].  [Get] and [Del] canonicalise
    the key they are given; the only key the handler uses, the literal
    ["Content-Encoding"], is its own canonical form, so the two operations
    are the map lookup and the map delete at that key. *)
Module Header.

Definition Get (h : gmap string (list string)) (key : string) : string :=
  match h !! key with
  | Some (v :: _) => v
  | _ => ""
  end.

Definition Del (h : gmap string (list string)) (key : string)
  : gmap string (list string) :=
  delete key h.

End Header.

(** ** Body streams

    [r.Body] is an [io.ReadCloser]: a reference to a stream object.  Stream
    objects live in a store indexed by locations, so that replacing the
    reference held by the request and consuming the object it points to are
    different effects. *)
Abbreviation loc := positive (only parsing).

(** What is left to read from a stream: the bytes still to come, and the
    error that ends them ([None] for a clean [io.EOF]). *)
Record Stream := mkStream { pending : bytes; fault : option error }.

(** [io.ReadAll] returns everything read up to the end of the stream or the
    first error, with that error ([nil] at end of stream), and leaves the
    stream exhausted. *)
Definition io_ReadAll (s : Stream) : (bytes * option error) * Stream :=
  ((pending s, fault s), mkStream [] (fault s)).

(** [io.NopCloser(bytes.NewReader(b))]: a new stream over an in-memory
    buffer, which reads [b] and then ends cleanly. *)
Definition bytes_NewReader (b : bytes) : Stream := mkStream b None.

(** ** The request, the metrics and the middleware *)

(** The fields of [http.Request] the handler touches. *)
Record Request := mkRequest {
  Header : gmap string (list string);
  Body : loc;
  ContentLength : Z
}.

(** Everything the handler chain can see: the request [r] points to, the
    stream objects, and the response side ([w] and whatever else the
    downstream handlers own), whose type [W] is left open. *)
Record Env (W : Type) := mkEnv {
  req : Request;
  streams : gmap loc Stream;
  writer : W
}.
Arguments mkEnv {W} _ _ _.
Arguments req {W} _.
Arguments streams {W} _.
Arguments writer {W} _.

(** [DecompressionMetrics]; a [*int64] entry of [RequestsByCompression] is
    the counter it points to (every entry gets its own [new(int64)]). *)
Record DecompressionMetrics := mkMetrics {
  TotalRequests : Z;
  SuccessfulRequests : Z;
  FailedRequests : Z;
  DecompressionTimings : float;
  RequestsByCompression : gmap string Z
}.

(** [Middleware]: the [metrics] pointer is nil until [Provision] runs.  The
    logger is never used by [ServeHTTP] and is left out. *)
Record Middleware := mkMiddleware { metrics : option DecompressionMetrics }.

(** [Provision]: a fresh metrics struct, every counter at its zero value and
    an empty map. *)
Definition Provision (m : Middleware) : Middleware :=
  mkMiddleware (Some (mkMetrics 0 0 0 0%float ∅)).

(** [caddyhttp.HandlerError] as built by [caddyhttp.Error(status, err)] from
    a library error; the random [ID] and the stack [Trace] are not part of
    the model. *)
Record HandlerError := mkHandlerError { StatusCode : Z; Err : error }.

Definition caddyhttp_Error (statusCode : Z) (err : error) : HandlerError :=
  mkHandlerError statusCode err.

Definition http_StatusBadRequest : Z := 400.

(** ** Library code

    The three decoders are library code.  Each is given by what the handler
    observes of it on an in-memory buffer: whether constructing the reader
    fails, and what [io.ReadAll] returns on the reader.  [bzip2.NewReader]
    has no error result.  [unicodeLower] is the non-ASCII branch of
    [strings.ToLower]. *)
Record Library := mkLibrary {
  unicodeLower : string -> string;
  gzip_Reader : Type;
  gzip_NewReader : bytes -> gzip_Reader + error;
  gzip_ReadAll : gzip_Reader -> bytes * option error;
  bzip2_Reader : Type;
  bzip2_NewReader : bytes -> bzip2_Reader;
  bzip2_ReadAll : bzip2_Reader -> bytes * option error;
  zstd_Decoder : Type;
  zstd_NewReader : bytes -> zstd_Decoder + error;
  zstd_ReadAll : zstd_Decoder -> bytes * option error
}.

(** ** ServeHTTP *)

(** The three ways an invocation ends: it returns [caddyhttp.Error(...)], it
    returns whatever [next.ServeHTTP(w, r)] does ([T] is the whole behaviour
    of the downstream handler on the environment it is given), or it panics
    on a nil pointer. *)
Inductive Outcome (W T : Type) :=
| Rejected (he : HandlerError) (m : Middleware) (e : Env W)
| Forwarded (m : Middleware) (t : T)
| Panicked (m : Middleware) (e : Env W).
Arguments Rejected {W T} _ _ _.
Arguments Forwarded {W T} _ _.
Arguments Panicked {W T} _ _.

(** Field updates of the metrics struct. *)
Definition addTotal (ms : DecompressionMetrics) : DecompressionMetrics :=
  mkMetrics (atomic_AddInt64 (TotalRequests ms) 1) (SuccessfulRequests ms)
    (FailedRequests ms) (DecompressionTimings ms) (RequestsByCompression ms).

Definition addSuccessful (ms : DecompressionMetrics) : DecompressionMetrics :=
  mkMetrics (TotalRequests ms) (atomic_AddInt64 (SuccessfulRequests ms) 1)
    (FailedRequests ms) (DecompressionTimings ms) (RequestsByCompression ms).

Definition addFailed (ms : DecompressionMetrics) : DecompressionMetrics :=
  mkMetrics (TotalRequests ms) (SuccessfulRequests ms)
    (atomic_AddInt64 (FailedRequests ms) 1) (DecompressionTimings ms)
    (RequestsByCompression ms).

(** Lines 72-75: create the entry of the token if it is missing, then add
    one to the counter it points to. *)
Definition countEncoding (encoding : string) (ms : DecompressionMetrics)
  : DecompressionMetrics :=
  let byc :=
    match RequestsByCompression ms !! encoding with
    | Some _ => RequestsByCompression ms
    | None => <[encoding := 0]> (RequestsByCompression ms)
    end in
  let byc' :=
    match byc !! encoding with
    | Some n => <[encoding := atomic_AddInt64 n 1]> byc
    | None => byc
    end in
  mkMetrics (TotalRequests ms) (SuccessfulRequests ms) (FailedRequests ms)
    (DecompressionTimings ms) byc'.

(** What the [switch] of lines 84-111 leaves behind: an early [return] with
    an error for [caddyhttp.Error], or the value of [decompressed] and of the
    function-level variable [err] that line 113 tests. *)
Inductive Switch :=
| EarlyReturn (err : error)
| Fallthrough (decompressed : bytes) (err : option error).

(** The [switch].  [err] is the function-level variable declared on line 77.
    In the gzip and zstd cases the statements [reader, err := ...] and
    [decoder, err := ...] declare a new [err] local to the case clause, and
    the result of [io.ReadAll] is assigned to that local variable; the
    function-level [err] keeps its value.  The bz2 case declares only
    [reader], so there [io.ReadAll] assigns the function-level [err]. *)
Definition dispatch (L : Library) (encoding : string) (body : bytes)
    (err : option error) : Switch :=
  if String.eqb encoding "gzip" then
    match gzip_NewReader L body with
    | inr err' => EarlyReturn err'
    | inl reader =>
        let '(decompressed, _) := gzip_ReadAll L reader in
        Fallthrough decompressed err
    end
  else if String.eqb encoding "bz2" then
    let reader := bzip2_NewReader L body in
    let '(decompressed, err') := bzip2_ReadAll L reader in
    Fallthrough decompressed err'
  else if String.eqb encoding "zstd" then
    match zstd_NewReader L body with
    | inr err' => EarlyReturn err'
    | inl decoder =>
        let '(decompressed, _) := zstd_ReadAll L decoder in
        Fallthrough decompressed err
    end
  else
    EarlyReturn ("unsupported Content-Encoding: " ++ encoding).

(** Lines 119-121 on the request, given the location of the new reader. *)
Definition rewriteRequest (r : Request) (l : loc) (decompressed : bytes)
  : Request :=
  mkRequest (Header.Del (Header r) "Content-Encoding") l
    (Z.of_nat (length decompressed)).

Section ServeHTTP.

Context {W T : Type}.
Variable L : Library.
Variable next : Env W -> T.

Definition setMetrics (ms : DecompressionMetrics) : Middleware :=
  mkMiddleware (Some ms).

Definition ServeHTTP (m : Middleware) (e : Env W) : Outcome W T :=
  let r := req e in
  if String.eqb (Header.Get (Header r) "Content-Encoding") "" then
    Forwarded m (next e)
  else
    match metrics m with
    | None => Panicked m e
    | Some ms =>
        let ms := addTotal ms in
        let encoding :=
          GoStrings.ToLower (unicodeLower L)
            (Header.Get (Header r) "Content-Encoding") in
        let ms := countEncoding encoding ms in
        match streams e !! Body r with
        | None => Panicked (setMetrics ms) e
        | Some s =>
            let '((body, err), s') := io_ReadAll s in
            let e := mkEnv r (<[Body r := s']> (streams e)) (writer e) in
            match err with
            | Some err =>
                Rejected (caddyhttp_Error http_StatusBadRequest err)
                  (setMetrics (addFailed ms)) e
            | None =>
                match dispatch L encoding body err with
                | EarlyReturn err =>
                    Rejected (caddyhttp_Error http_StatusBadRequest err)
                      (setMetrics (addFailed ms)) e
                | Fallthrough decompressed (Some err) =>
                    Rejected (caddyhttp_Error http_StatusBadRequest err)
                      (setMetrics (addFailed ms)) e
                | Fallthrough decompressed None =>
                    let ms := addSuccessful ms in
                    let l := fresh (dom (streams e)) in
                    let e :=
                      mkEnv (rewriteRequest r l decompressed)
                        (<[l := bytes_NewReader decompressed]> (streams e))
                        (writer e) in
                    Forwarded (setMetrics ms) (next e)
                end
            end
        end
    end.

End ServeHTTP.

(** ** Vocabulary of the statements *)

(** The tokens with a case of their own in the [switch]. *)
Definition supported (token : string) : Prop :=
  token = "gzip" \/ token = "bz2" \/ token = "zstd".

(** The header value the handler dispatches on, lower-cased. *)
Definition encodingOf (L : Library) (r : Request) : string :=
  GoStrings.ToLower (unicodeLower L) (Header.Get (Header r) "Content-Encoding").

(** [Decodes L token body out]: the decoder selected by [token] is built
    over [body] without error and [io.ReadAll] on it returns [out] and a nil
    error. *)
Inductive Decodes (L : Library) : string -> bytes -> bytes -> Prop :=
| Decodes_gzip body reader out :
    gzip_NewReader L body = inl reader ->
    gzip_ReadAll L reader = (out, None) ->
    Decodes L "gzip" body out
| Decodes_bz2 body out :
    bzip2_ReadAll L (bzip2_NewReader L body) = (out, None) ->
    Decodes L "bz2" body out
| Decodes_zstd body decoder out :
    zstd_NewReader L body = inl decoder ->
    zstd_ReadAll L decoder = (out, None) ->
    Decodes L "zstd" body out.

(** [DrainFails L token body partial err]: the decoder of a gzip or zstd
    [token] is built over [body] without error, and [io.ReadAll] on it stops
    with the error [err] after producing [partial]. *)
Inductive DrainFails (L : Library)
  : string -> bytes -> bytes -> error -> Prop :=
| DrainFails_gzip body reader partial err :
    gzip_NewReader L body = inl reader ->
    gzip_ReadAll L reader = (partial, Some err) ->
    DrainFails L "gzip" body partial err
| DrainFails_zstd body decoder partial err :
    zstd_NewReader L body = inl decoder ->
    zstd_ReadAll L decoder = (partial, Some err) ->
    DrainFails L "zstd" body partial err.

(** The metrics after lines 69-75 have run for a request with [token]. *)
Definition counted (token : string) (ms : DecompressionMetrics)
  : DecompressionMetrics :=
  countEncoding token (addTotal ms).

(** The store once [io.ReadAll(r.Body)] has consumed the body. *)
Definition drained {W : Type} (e : Env W) (s : Stream) : gmap loc Stream :=
  <[Body (req e) := mkStream [] (fault s)]> (streams e).

(** The environment on a rejection: the request as it came, its body
    consumed. *)
Definition rejectedEnv {W : Type} (e : Env W) (s : Stream) : Env W :=
  mkEnv (req e) (drained e s) (writer e).

(** The environment handed to [next] on success: lines 119-121 applied, the
    new reader allocated at a location unused so far. *)
Definition forwardedEnv {W : Type} (e : Env W) (s : Stream) (out : bytes)
  : Env W :=
  let l := fresh (dom (drained e s)) in
  mkEnv (rewriteRequest (req e) l out)
    (<[l := bytes_NewReader out]> (drained e s)) (writer e).

(** The middleware an invocation leaves behind when it returns; [None] when
    it panics. *)
Definition after {W T : Type} (o : Outcome W T) : option Middleware :=
  match o with
  | Rejected _ m _ => Some m
  | Forwarded m _ => Some m
  | Panicked _ _ => None
  end.

(** The middleware an invocation leaves behind, however it ends. *)
Definition middlewareOf {W T : Type} (o : Outcome W T) : Middleware :=
  match o with
  | Rejected _ m _ => m
  | Forwarded m _ => m
  | Panicked m _ => m
  end.

(** Go's [SuccessfulRequests + FailedRequests == TotalRequests] on [int64]. *)
Definition balanced (ms : DecompressionMetrics) : Prop :=
  wrap64 (SuccessfulRequests ms + FailedRequests ms) = TotalRequests ms.

(** The states of a middleware that is provisioned and then serves requests
    one after the other, each invocation returning before the next starts. *)
Inductive reachable : Middleware -> Prop :=
| reachable_Provision m : reachable (Provision m)
| reachable_ServeHTTP (W T : Type) (L : Library) (next : Env W -> T)
    (m m' : Middleware) (e : Env W) :
    reachable m ->
    after (ServeHTTP L next m e) = Some m' ->
    reachable m'.

(** ** A concrete instance

    Stand-in decoders over which the statements above are run on concrete
    requests.  The framing is the same for the three: two magic bytes
    checked when the reader is built (bzip2 checks nothing there), then
    records [x01 b] for each payload byte [b], closed by [x00].  A stream
    that stops before the closing byte yields the bytes decoded so far and
    "unexpected EOF"; any other record tag yields "corrupt input". *)
Module Demo.

Fixpoint unframe (bs : bytes) : bytes * option error :=
  match bs with
  | [] => ([], Some "unexpected EOF")
  | Byte.x00 :: _ => ([], None)
  | Byte.x01 :: b :: rest =>
      let '(out, err) := unframe rest in (b :: out, err)
  | Byte.x01 :: [] => ([], Some "unexpected EOF")
  | _ :: _ => ([], Some "corrupt input")
  end.

Fixpoint frame (bs : bytes) : bytes :=
  match bs with
  | [] => [Byte.x00]
  | b :: rest => Byte.x01 :: b :: frame rest
  end.

Definition checkMagic (m1 m2 : Byte.byte) (msg : error) (bs : bytes)
  : bytes + error :=
  match bs with
  | b1 :: b2 :: rest =>
      if Byte.eqb b1 m1 && Byte.eqb b2 m2 then inl rest else inr msg
  | _ => inr msg
  end.

Definition library : Library :=
  {| unicodeLower := fun s => s;
     gzip_Reader := bytes;
     gzip_NewReader := checkMagic Byte.x1f Byte.x8b "gzip: invalid header";
     gzip_ReadAll := unframe;
     bzip2_Reader := bytes;
     bzip2_NewReader := fun bs => bs;
     bzip2_ReadAll := unframe;
     zstd_Decoder := bytes;
     zstd_NewReader := checkMagic Byte.x28 Byte.xb5 "invalid input: magic number mismatch";
     zstd_ReadAll := unframe |}.

(** The compressors matching the stand-in decoders. *)
Definition compress (encoding : string) (plain : bytes) : bytes :=
  if String.eqb encoding "gzip" then Byte.x1f :: Byte.x8b :: frame plain
  else if String.eqb encoding "zstd" then Byte.x28 :: Byte.xb5 :: frame plain
  else frame plain.

(** The downstream handler of the examples hands back the environment it
    was called with, so that a [Forwarded] outcome shows the request that
    was passed on. *)
Definition next (e : Env unit) : Env unit := e.

Definition plain : bytes := [Byte.x68; Byte.x69].

Definition request (encoding : list string) : Request :=
  mkRequest (<["Content-Type" := ["application/json"]]>
               (match encoding with
                | [] => ∅
                | _ => {["Content-Encoding" := encoding]}
                end))
    1%positive 7.

Definition env (encoding : list string) (body : Stream) : Env unit :=
  mkEnv (request encoding) {[1%positive := body]} tt.

Definition provisioned : Middleware := Provision (mkMiddleware None).

End Demo.

(** ** The rest of the module

    The functions Caddy calls around [ServeHTTP].  The Caddyfile helper and
    the dispenser are Caddy's; none of the functions looks at them, so
    their types are left open. *)

(** [CaddyModule().New]: [new(Middleware)], every field at its zero value,
    the [metrics] pointer nil. *)
Definition CaddyModule_New : Middleware := mkMiddleware None.

(** [parseCaddyfile]: [var m Middleware; return &m, nil]. *)
Definition parseCaddyfile {Helper : Type} (h : Helper)
  : Middleware * option error :=
  (mkMiddleware None, None).

(** [UnmarshalCaddyfile]: returns nil; neither the middleware nor the
    dispenser is touched. *)
Definition UnmarshalCaddyfile {Dispenser : Type} (m : Middleware)
    (d : Dispenser) : Middleware * Dispenser * option error :=
  (m, d, None).

(** [Validate]: returns nil. *)
Definition Validate (m : Middleware) : option error := None.

(** The environment [next] is called with is read off an invocation by
    taking for [next] the handler that hands its environment back. *)
Definition observe {W : Type} (e : Env W) : Env W := e.


(** The sum of the per-encoding counters. *)
Definition sumCounts (byc : gmap string Z) : Z :=
  map_fold (fun _ n acc => n + acc) 0 byc.

(** Lines 86-90 and 99-103: building the gzip or zstd decoder over [body]
    fails with [err]. *)
Inductive ConstructionFails (L : Library) : string -> bytes -> error -> Prop :=
| ConstructionFails_gzip body err :
    gzip_NewReader L body = inr err ->
    ConstructionFails L "gzip" body err
| ConstructionFails_zstd body err :
    zstd_NewReader L body = inr err ->
    ConstructionFails L "zstd" body err.

(** ** Basic facts *)

Example ToLower_mixed_case (u : string -> string) :
  GoStrings.ToLower u "GZip" = "gzip" /\ GoStrings.ToLower u "bz2" = "bz2".
Proof. split; reflexivity. Qed.

Example Header_Get_cases :
  Header.Get ∅ "Content-Encoding" = ""
  /\ Header.Get {["Content-Encoding" := []]} "Content-Encoding" = ""
  /\ Header.Get {["Content-Encoding" := [""; "gzip"]]} "Content-Encoding" = ""
  /\ Header.Get {["Content-Encoding" := ["gzip"; "zstd"]]} "Content-Encoding"
     = "gzip".
Proof. repeat split; reflexivity. Qed.

Example atomic_AddInt64_wraps :
  atomic_AddInt64 (2 ^ 63 - 1) 1 = - 2 ^ 63 /\ atomic_AddInt64 41 1 = 42.
Proof. split; reflexivity. Qed.

Lemma ToLower_empty (u : string -> string) : GoStrings.ToLower u "" = "".
Proof. reflexivity. Qed.

Lemma supported_nonempty (token : string) : supported token -> token <> "".
Proof. intros [-> | [-> | ->]]; discriminate. Qed.

Lemma encodingOf_nonempty (L : Library) (r : Request) :
  encodingOf L r <> "" -> Header.Get (Header r) "Content-Encoding" <> "".
Proof.
  unfold encodingOf. intros Hne Hget. apply Hne. rewrite Hget.
  apply ToLower_empty.
Qed.

Lemma wrap64_add_l (a b : Z) : wrap64 (wrap64 a + b) = wrap64 (a + b).
Proof.
  unfold wrap64. f_equal.
  replace ((a + 2 ^ 63) mod 2 ^ 64 - 2 ^ 63 + b + 2 ^ 63)
    with ((a + 2 ^ 63) mod 2 ^ 64 + b) by lia.
  rewrite Z.add_mod_idemp_l by lia. f_equal. lia.
Qed.

Lemma wrap64_add_r (a b : Z) : wrap64 (a + wrap64 b) = wrap64 (a + b).
Proof. rewrite (Z.add_comm a), wrap64_add_l. f_equal. lia. Qed.

Lemma wrap64_small (z : Z) : - 2 ^ 63 <= z < 2 ^ 63 -> wrap64 z = z.
Proof. intros Hz. unfold wrap64. rewrite Z.mod_small; lia. Qed.

Lemma atomic_AddInt64_small (v : Z) :
  - 2 ^ 63 <= v < 2 ^ 63 - 1 -> atomic_AddInt64 v 1 = v + 1.
Proof. intros Hv. unfold atomic_AddInt64. apply wrap64_small. lia. Qed.

(** Lines 72-75, one request at a time: the counter of the token goes up by
    one, starting from zero when the entry is new, and the entries of the
    other tokens stay as they are. *)
Lemma countEncoding_lookup (token : string) (ms : DecompressionMetrics) :
  RequestsByCompression (countEncoding token ms) !! token
    = Some (atomic_AddInt64
              (default 0 (RequestsByCompression ms !! token)) 1).
Proof.
  unfold countEncoding. simpl.
  destruct (RequestsByCompression ms !! token) as [n|] eqn:Hlook; simpl.
  - rewrite Hlook. apply lookup_insert_eq.
  - rewrite lookup_insert_eq. apply lookup_insert_eq.
Qed.

Lemma countEncoding_other (token other : string) (ms : DecompressionMetrics) :
  token <> other ->
  RequestsByCompression (countEncoding token ms) !! other
    = RequestsByCompression ms !! other.
Proof.
  intros Hne. unfold countEncoding. simpl.
  destruct (RequestsByCompression ms !! token) as [n|] eqn:Hlook; simpl.
  - rewrite Hlook. apply lookup_insert_ne, Hne.
  - rewrite lookup_insert_eq.
    rewrite !lookup_insert_ne by exact Hne. reflexivity.
Qed.

(** The body of [ServeHTTP] past the header test and the two nil checks:
    the read of the body, the [switch] and the test of line 113. *)
Lemma ServeHTTP_encoded {W T : Type} (L : Library) (next : Env W -> T)
    (m : Middleware) (ms : DecompressionMetrics) (e : Env W) (s : Stream) :
  Header.Get (Header (req e)) "Content-Encoding" <> "" ->
  metrics m = Some ms ->
  streams e !! Body (req e) = Some s ->
  ServeHTTP L next m e =
    let ms1 := counted (encodingOf L (req e)) ms in
    match fault s with
    | Some err =>
        Rejected (mkHandlerError 400 err) (setMetrics (addFailed ms1))
          (rejectedEnv e s)
    | None =>
        match dispatch L (encodingOf L (req e)) (pending s) None with
        | EarlyReturn err
        | Fallthrough _ (Some err) =>
            Rejected (mkHandlerError 400 err) (setMetrics (addFailed ms1))
              (rejectedEnv e s)
        | Fallthrough out None =>
            Forwarded (setMetrics (addSuccessful ms1))
              (next (forwardedEnv e s out))
        end
    end.
Proof.
  intros Hget Hm Hs. unfold ServeHTTP.
  apply String.eqb_neq in Hget. rewrite Hget, Hm, Hs. simpl.
  unfold rejectedEnv, forwardedEnv, drained, counted, encodingOf.
  destruct (fault s) as [err|]; [reflexivity|].
  destruct (dispatch _ _ _ _) as [err|out [err|]]; reflexivity.
Qed.

Lemma dispatch_Decodes (L : Library) (token : string) (body out : bytes) :
  Decodes L token body out ->
  dispatch L token body None = Fallthrough out None.
Proof.
  intros Hdec. unfold dispatch. destruct Hdec as [b rd o Hnew Hread | b o Hread | b dec o Hnew Hread]; simpl.
  - rewrite Hnew, Hread. reflexivity.
  - rewrite Hread. reflexivity.
  - rewrite Hnew, Hread. reflexivity.
Qed.

Lemma Decodes_supported (L : Library) (token : string) (body out : bytes) :
  Decodes L token body out -> supported token.
Proof. unfold supported. intros []; auto. Qed.

(** The location of the new reader is not one of the request's streams. *)
Lemma forwardedEnv_fresh {W : Type} (e : Env W) (s : Stream) :
  streams e !! Body (req e) = Some s ->
  fresh (dom (drained e s)) ∉ dom (streams e).
Proof.
  intros Hs. unfold drained. rewrite dom_insert_L.
  assert (Hin : Body (req e) ∈ dom (streams e)) by (apply elem_of_dom; eauto).
  rewrite (subseteq_union_1_L {[Body (req e)]} (dom (streams e))).
  - apply is_fresh.
  - apply singleton_subseteq_l, Hin.
Qed.

(** The decode-and-forward path, shared by the statements below. *)
Lemma ServeHTTP_forward {W T : Type} (L : Library) (next : Env W -> T)
    (m : Middleware) (ms : DecompressionMetrics) (e : Env W) (s : Stream)
    (out : bytes) :
  Decodes L (encodingOf L (req e)) (pending s) out ->
  metrics m = Some ms ->
  streams e !! Body (req e) = Some s ->
  fault s = None ->
  ServeHTTP L next m e =
    Forwarded (setMetrics (addSuccessful (counted (encodingOf L (req e)) ms)))
      (next (forwardedEnv e s out)).
Proof.
  intros Hdec Hm Hs Hf.
  rewrite (ServeHTTP_encoded L next m ms e s); auto.
  - simpl. rewrite Hf, (dispatch_Decodes L _ _ _ Hdec). reflexivity.
  - apply (encodingOf_nonempty L), supported_nonempty.
    exact (Decodes_supported L _ _ _ Hdec).
Qed.

(** ** Pass-through *)

(** C4: when [Content-Encoding] is absent or its first value is empty, the
    handler returns [next.ServeHTTP(w, r)] on the environment exactly as it
    received it, and the middleware (its metrics included) is unchanged. *)
Theorem ServeHTTP_no_encoding_passthrough
    {W T : Type} (L : Library) (next : Env W -> T) (m : Middleware) (e : Env W) :
  Header.Get (Header (req e)) "Content-Encoding" = "" ->
  ServeHTTP L next m e = Forwarded m (next e).
Proof.
  intros Hget. unfold ServeHTTP. rewrite Hget. reflexivity.
Qed.

(** At a request with no [Content-Encoding] at all. *)
Lemma ServeHTTP_no_encoding_passthrough_witness :
  ServeHTTP Demo.library Demo.next Demo.provisioned
    (Demo.env [] (mkStream Demo.plain None))
  = Forwarded Demo.provisioned (Demo.env [] (mkStream Demo.plain None)).
Proof.
  apply (ServeHTTP_no_encoding_passthrough Demo.library Demo.next).
  reflexivity.
Defined.

(** ** Decode and forward *)

(** C1: a request whose lower-cased [Content-Encoding] selects one of the
    three decoders, whose body is read without error and decodes to [out]
    without error, is answered by [next]: the handler returns what [next]
    returns on the rewritten request.  On the way the success counter has
    been incremented (and the failure counter left alone), [r.Body] refers
    to a reader that did not exist before and that yields exactly [out],
    the [Content-Encoding] header is gone and [r.ContentLength] is the
    number of decoded bytes. *)
Theorem ServeHTTP_success_forwards
    {W T : Type} (L : Library) (next : Env W -> T) (m : Middleware)
    (ms : DecompressionMetrics) (e : Env W) (s : Stream) (out : bytes) :
  supported (encodingOf L (req e)) ->
  Decodes L (encodingOf L (req e)) (pending s) out ->
  metrics m = Some ms ->
  streams e !! Body (req e) = Some s ->
  fault s = None ->
  let ms' := addSuccessful (counted (encodingOf L (req e)) ms) in
  let e' := forwardedEnv e s out in
  ServeHTTP L next m e = Forwarded (setMetrics ms') (next e')
  /\ SuccessfulRequests ms' = atomic_AddInt64 (SuccessfulRequests ms) 1
  /\ FailedRequests ms' = FailedRequests ms
  /\ (Body (req e') ∉ dom (streams e))
  /\ streams e' !! Body (req e') = Some (mkStream out None)
  /\ Header (req e') = delete "Content-Encoding" (Header (req e))
  /\ Header.Get (Header (req e')) "Content-Encoding" = ""
  /\ ContentLength (req e') = Z.of_nat (length out)
  /\ writer e' = writer e.
Proof.
  intros _ Hdec Hm Hs Hf ms' e'.
  split; [exact (ServeHTTP_forward L next m ms e s out Hdec Hm Hs Hf)|].
  split; [reflexivity|]. split; [reflexivity|].
  split; [exact (forwardedEnv_fresh e s Hs)|].
  split; [apply lookup_insert_eq|].
  split; [reflexivity|].
  split; [|split; reflexivity].
  unfold Header.Get. simpl. unfold Header.Del.
  rewrite lookup_delete_eq. reflexivity.
Qed.

(** At [Content-Encoding: GZIP] over the stand-in encoding of two bytes. *)
Lemma ServeHTTP_success_forwards_witness :
  ServeHTTP Demo.library Demo.next Demo.provisioned
    (Demo.env ["GZIP"] (mkStream (Demo.compress "gzip" Demo.plain) None))
  = Forwarded
      (mkMiddleware (Some (mkMetrics 1 1 0 0%float {["gzip" := 1]})))
      (mkEnv
         (mkRequest {["Content-Type" := ["application/json"]]} 2%positive 2)
         (<[2%positive := mkStream Demo.plain None]>
            {[1%positive := mkStream [] None]})
         tt).
Proof.
  etransitivity.
  - apply (ServeHTTP_success_forwards Demo.library Demo.next
             Demo.provisioned (mkMetrics 0 0 0 0%float ∅) _
             (mkStream (Demo.compress "gzip" Demo.plain) None) Demo.plain).
    + left. reflexivity.
    + change (encodingOf Demo.library _) with "gzip".
      eapply Decodes_gzip; reflexivity.
    + reflexivity.
    + reflexivity.
    + reflexivity.
  - vm_compute. reflexivity.
Defined.

(** ** Round trip *)

(** The stand-in decoders undo the stand-in compressors. *)
Lemma Demo_unframe_frame (plain : bytes) :
  Demo.unframe (Demo.frame plain) = (plain, None).
Proof.
  induction plain as [|b rest IH]; simpl; [reflexivity|].
  rewrite IH. reflexivity.
Qed.

Lemma Demo_roundtrip (token : string) (plain : bytes) :
  supported token ->
  Decodes Demo.library token (Demo.compress token plain) plain.
Proof.
  intros [-> | [-> | ->]].
  - eapply Decodes_gzip; [reflexivity|]. apply Demo_unframe_frame.
  - apply Decodes_bz2. apply Demo_unframe_frame.
  - eapply Decodes_zstd; [reflexivity|]. apply Demo_unframe_frame.
Qed.

(** C2: let [compress] be compressors the three library decoders invert
    (building the decoder over [compress token x] succeeds and draining it
    gives back [x]).  Then for every plaintext [x] and every supported
    token, a request whose body is [compress token x] is forwarded with a
    body that reads back as exactly [x], without a [Content-Encoding]
    header, and with [ContentLength] the length of [x]. *)
Theorem ServeHTTP_roundtrip
    {W T : Type} (L : Library) (next : Env W -> T)
    (compress : string -> bytes -> bytes) (m : Middleware)
    (ms : DecompressionMetrics) (e : Env W) (token : string) (x : bytes) :
  (forall tok plain, supported tok -> Decodes L tok (compress tok plain) plain) ->
  supported token ->
  encodingOf L (req e) = token ->
  metrics m = Some ms ->
  streams e !! Body (req e) = Some (mkStream (compress token x) None) ->
  exists (m' : Middleware) (e' : Env W),
    ServeHTTP L next m e = Forwarded m' (next e')
    /\ (exists body' : Stream,
          streams e' !! Body (req e') = Some body'
          /\ fst (io_ReadAll body') = (x, None))
    /\ Header (req e') !! "Content-Encoding" = None
    /\ ContentLength (req e') = Z.of_nat (length x).
Proof.
  intros Hrt Hsup Htok Hm Hs.
  set (s := mkStream (compress token x) None) in *.
  exists (setMetrics (addSuccessful (counted (encodingOf L (req e)) ms))).
  exists (forwardedEnv e s x).
  split.
  - apply (ServeHTTP_forward L next m ms e s x); auto.
    rewrite Htok. apply Hrt, Hsup.
  - split; [|split].
    + exists (mkStream x None). split; [apply lookup_insert_eq | reflexivity].
    + simpl. unfold Header.Del. apply lookup_delete_eq.
    + reflexivity.
Qed.

(** At [Content-Encoding: zstd] over the stand-in encoding of two bytes. *)
Lemma ServeHTTP_roundtrip_witness :
  exists (m' : Middleware) (e' : Env unit),
    ServeHTTP Demo.library Demo.next Demo.provisioned
      (Demo.env ["zstd"] (mkStream (Demo.compress "zstd" Demo.plain) None))
    = Forwarded m' (Demo.next e')
    /\ (exists body' : Stream,
          streams e' !! Body (req e') = Some body'
          /\ fst (io_ReadAll body') = (Demo.plain, None))
    /\ Header (req e') !! "Content-Encoding" = None
    /\ ContentLength (req e') = 2.
Proof.
  apply (ServeHTTP_roundtrip Demo.library Demo.next Demo.compress
           Demo.provisioned (mkMetrics 0 0 0 0%float ∅) _ "zstd" Demo.plain).
  - exact Demo_roundtrip.
  - right. right. reflexivity.
  - reflexivity.
  - reflexivity.
  - reflexivity.
Defined.

(** ** Errors found while draining the decoder *)

Lemma dispatch_DrainFails (L : Library) (token : string)
    (body partial : bytes) (err : error) :
  DrainFails L token body partial err ->
  dispatch L token body None = Fallthrough partial None.
Proof.
  intros Hfail. unfold dispatch.
  destruct Hfail as [b rd p er Hnew Hread | b dec p er Hnew Hread]; simpl;
    rewrite Hnew, Hread; reflexivity.
Qed.

(** C3 (what the code does where the claim fails): for the tokens gzip and
    zstd, when the decoder is built without error and draining it stops
    with an error after producing [partial], the handler does not reject.
    The error of [io.ReadAll] lands in the [err] declared inside the case
    clause, line 113 tests the function-level [err], which is still nil,
    and the request goes to [next] with body [partial], the success counter
    incremented and the failure counter untouched. *)
Theorem ServeHTTP_gzip_zstd_drain_error_forwarded
    {W T : Type} (L : Library) (next : Env W -> T) (m : Middleware)
    (ms : DecompressionMetrics) (e : Env W) (s : Stream)
    (partial : bytes) (err : error) :
  DrainFails L (encodingOf L (req e)) (pending s) partial err ->
  metrics m = Some ms ->
  streams e !! Body (req e) = Some s ->
  fault s = None ->
  let ms' := addSuccessful (counted (encodingOf L (req e)) ms) in
  ServeHTTP L next m e
    = Forwarded (setMetrics ms') (next (forwardedEnv e s partial))
  /\ SuccessfulRequests ms' = atomic_AddInt64 (SuccessfulRequests ms) 1
  /\ FailedRequests ms' = FailedRequests ms.
Proof.
  intros Hfail Hm Hs Hf ms'. split; [|split; reflexivity].
  rewrite (ServeHTTP_encoded L next m ms e s); auto.
  - simpl. rewrite Hf, (dispatch_DrainFails L _ _ _ _ Hfail). reflexivity.
  - apply (encodingOf_nonempty L).
    destruct Hfail; discriminate.
Qed.

(** At [Content-Encoding: gzip] with a stream cut in the middle of its
    second record: one byte is decoded, the drain ends in "unexpected EOF",
    and the request is forwarded with that one byte as its body. *)
Lemma ServeHTTP_gzip_zstd_drain_error_forwarded_witness :
  Demo.unframe [Byte.x01; Byte.x68; Byte.x01]
    = ([Byte.x68], Some "unexpected EOF")
  /\ ServeHTTP Demo.library Demo.next Demo.provisioned
       (Demo.env ["gzip"]
          (mkStream [Byte.x1f; Byte.x8b; Byte.x01; Byte.x68; Byte.x01] None))
     = Forwarded
         (mkMiddleware (Some (mkMetrics 1 1 0 0%float {["gzip" := 1]})))
         (mkEnv
            (mkRequest {["Content-Type" := ["application/json"]]} 2%positive 1)
            (<[2%positive := mkStream [Byte.x68] None]>
               {[1%positive := mkStream [] None]})
            tt).
Proof.
  split; [reflexivity|].
  etransitivity.
  - apply (ServeHTTP_gzip_zstd_drain_error_forwarded Demo.library Demo.next
             Demo.provisioned (mkMetrics 0 0 0 0%float ∅) _
             (mkStream [Byte.x1f; Byte.x8b; Byte.x01; Byte.x68; Byte.x01] None)
             [Byte.x68] "unexpected EOF").
    + change (encodingOf Demo.library _) with "gzip".
      eapply DrainFails_gzip; reflexivity.
    + reflexivity.
    + reflexivity.
    + reflexivity.
  - vm_compute. reflexivity.
Defined.

(** C7: with the token bz2 there is no construction step that can fail:
    once the body has been read, the outcome is decided by the drain of the
    bzip2 reader alone.  If the drain stops with an error the handler
    returns a 400 carrying that error, the failure counter is incremented,
    the success counter is not, and [next] plays no part; if the drain ends
    cleanly the request is forwarded. *)
Theorem ServeHTTP_bz2_fails_only_on_drain
    {W T : Type} (L : Library) (next : Env W -> T) (m : Middleware)
    (ms : DecompressionMetrics) (e : Env W) (s : Stream) :
  encodingOf L (req e) = "bz2" ->
  metrics m = Some ms ->
  streams e !! Body (req e) = Some s ->
  fault s = None ->
  let drain := bzip2_ReadAll L (bzip2_NewReader L (pending s)) in
  (forall err, snd drain = Some err ->
     ServeHTTP L next m e
       = Rejected (mkHandlerError 400 err)
           (setMetrics (addFailed (counted "bz2" ms))) (rejectedEnv e s)
     /\ FailedRequests (addFailed (counted "bz2" ms))
        = atomic_AddInt64 (FailedRequests ms) 1
     /\ SuccessfulRequests (addFailed (counted "bz2" ms))
        = SuccessfulRequests ms)
  /\ (snd drain = None ->
      ServeHTTP L next m e
        = Forwarded (setMetrics (addSuccessful (counted "bz2" ms)))
            (next (forwardedEnv e s (fst drain)))).
Proof.
  intros Htok Hm Hs Hf drain.
  assert (Hget : Header.Get (Header (req e)) "Content-Encoding" <> "").
  { apply (encodingOf_nonempty L). rewrite Htok. discriminate. }
  pose proof (ServeHTTP_encoded L next m ms e s Hget Hm Hs) as Hserve.
  simpl in Hserve. rewrite Hf, Htok in Hserve.
  unfold dispatch in Hserve. simpl in Hserve. fold drain in Hserve.
  destruct drain as [out [err'|]]; simpl; split.
  - intros err [= <-]. split; [exact Hserve|split; reflexivity].
  - discriminate.
  - discriminate.
  - intros _. exact Hserve.
Qed.

(** At [Content-Encoding: bz2] with a stream that stops before its closing
    byte. *)
Lemma ServeHTTP_bz2_fails_only_on_drain_witness :
  ServeHTTP Demo.library Demo.next Demo.provisioned
    (Demo.env ["bz2"] (mkStream [Byte.x01; Byte.x68] None))
  = Rejected (mkHandlerError 400 "unexpected EOF")
      (mkMiddleware (Some (mkMetrics 1 0 1 0%float {["bz2" := 1]})))
      (Demo.env ["bz2"] (mkStream [] None)).
Proof.
  destruct (ServeHTTP_bz2_fails_only_on_drain Demo.library Demo.next
              Demo.provisioned (mkMetrics 0 0 0 0%float ∅)
              (Demo.env ["bz2"] (mkStream [Byte.x01; Byte.x68] None))
              (mkStream [Byte.x01; Byte.x68] None)
              eq_refl eq_refl eq_refl eq_refl) as [Hdrain _].
  destruct (Hdrain "unexpected EOF" eq_refl) as [Hserve _].
  etransitivity; [exact Hserve|].
  vm_compute. reflexivity.
Defined.

(** ** Unsupported encodings *)

Lemma dispatch_unsupported (L : Library) (token : string) (body : bytes)
    (err : option error) :
  ~ supported token ->
  dispatch L token body err
    = EarlyReturn ("unsupported Content-Encoding: " ++ token).
Proof.
  intros Hns. unfold dispatch, supported in *.
  destruct (String.eqb_spec token "gzip") as [->|_]; [tauto|].
  destruct (String.eqb_spec token "bz2") as [->|_]; [tauto|].
  destruct (String.eqb_spec token "zstd") as [->|_]; [tauto|].
  reflexivity.
Qed.

(** C5 as amended: a request whose lower-cased [Content-Encoding] is
    non-empty and is none of gzip, bz2, zstd is rejected with a 400, for
    every downstream handler [next] and without consulting it; the failure
    counter is incremented, the success counter is not, and the request
    fields are left as they were.  The message is "unsupported
    Content-Encoding: <token>" when the body was read without error; the
    body is read before the token is looked at, so when that read fails the
    400 carries the read error instead. *)
Theorem ServeHTTP_unsupported_rejected
    {W T : Type} (L : Library) (next : Env W -> T) (m : Middleware)
    (ms : DecompressionMetrics) (e : Env W) (s : Stream) :
  let token := encodingOf L (req e) in
  token <> "" ->
  ~ supported token ->
  metrics m = Some ms ->
  streams e !! Body (req e) = Some s ->
  let ms' := addFailed (counted token ms) in
  ServeHTTP L next m e
    = Rejected
        (mkHandlerError 400
           match fault s with
           | Some readErr => readErr
           | None => "unsupported Content-Encoding: " ++ token
           end)
        (setMetrics ms') (rejectedEnv e s)
  /\ FailedRequests ms' = atomic_AddInt64 (FailedRequests ms) 1
  /\ SuccessfulRequests ms' = SuccessfulRequests ms
  /\ req (rejectedEnv e s) = req e.
Proof.
  intros token Hne Hns Hm Hs ms'. split; [|repeat split].
  rewrite (ServeHTTP_encoded L next m ms e s);
    [|apply (encodingOf_nonempty L); exact Hne|exact Hm|exact Hs].
  simpl. fold token. destruct (fault s) as [readErr|]; [reflexivity|].
  rewrite (dispatch_unsupported L token _ _ Hns). reflexivity.
Qed.

(** At [Content-Encoding: Deflate] with a body that reads cleanly. *)
Lemma ServeHTTP_unsupported_rejected_witness :
  ServeHTTP Demo.library Demo.next Demo.provisioned
    (Demo.env ["Deflate"] (mkStream Demo.plain None))
  = Rejected (mkHandlerError 400 "unsupported Content-Encoding: deflate")
      (mkMiddleware (Some (mkMetrics 1 0 1 0%float {["deflate" := 1]})))
      (Demo.env ["Deflate"] (mkStream [] None)).
Proof.
  etransitivity.
  - apply (ServeHTTP_unsupported_rejected Demo.library Demo.next
             Demo.provisioned (mkMetrics 0 0 0 0%float ∅) _
             (mkStream Demo.plain None)).
    + discriminate.
    + unfold supported. vm_compute. intuition discriminate.
    + reflexivity.
    + reflexivity.
  - vm_compute. reflexivity.
Defined.

(** C5 as stated fails when the body cannot be read: the token "deflate" is
    non-empty and unsupported, yet the 400 that comes back carries the read
    error, not the "unsupported Content-Encoding" message. *)
Lemma ServeHTTP_unsupported_message_counterexample :
  encodingOf Demo.library (Demo.request ["deflate"]) = "deflate"
  /\ ServeHTTP Demo.library Demo.next Demo.provisioned
       (Demo.env ["deflate"] (mkStream [] (Some "unexpected EOF")))
     = Rejected (mkHandlerError 400 "unexpected EOF")
         (mkMiddleware (Some (mkMetrics 1 0 1 0%float {["deflate" := 1]})))
         (Demo.env ["deflate"] (mkStream [] (Some "unexpected EOF")))
  /\ String.eqb "unexpected EOF" "unsupported Content-Encoding: deflate"
     = false.
Proof. repeat split; vm_compute; reflexivity. Qed.

(** ** Rejections leave the request alone *)

(** C10: whenever the handler itself returns an error, that error is a 400
    and the request is as it was received: same header map, same [Body]
    reference, same [ContentLength].  (The stream behind [Body] may have
    been consumed; the reference is not replaced.) *)
Theorem ServeHTTP_rejection_leaves_request
    {W T : Type} (L : Library) (next : Env W -> T) (m m' : Middleware)
    (e e' : Env W) (he : HandlerError) :
  ServeHTTP L next m e = Rejected he m' e' ->
  StatusCode he = 400
  /\ Header (req e') = Header (req e)
  /\ Body (req e') = Body (req e)
  /\ ContentLength (req e') = ContentLength (req e).
Proof.
  unfold ServeHTTP.
  destruct (String.eqb _ _); [discriminate|].
  destruct (metrics m) as [ms|]; [|discriminate].
  destruct (streams e !! Body (req e)) as [s|]; [|discriminate].
  simpl. destruct (fault s) as [err|].
  - intros [= <- <- <-]. repeat split.
  - destruct (dispatch _ _ _ _) as [err|out [err|]];
      [| |discriminate]; intros [= <- <- <-]; repeat split.
Qed.

(** At a gzip request whose first bytes are not a gzip header. *)
Lemma ServeHTTP_rejection_leaves_request_witness :
  ServeHTTP Demo.library Demo.next Demo.provisioned
    (Demo.env ["gzip"] (mkStream Demo.plain None))
  = Rejected (mkHandlerError 400 "gzip: invalid header")
      (mkMiddleware (Some (mkMetrics 1 0 1 0%float {["gzip" := 1]})))
      (Demo.env ["gzip"] (mkStream [] None))
  /\ StatusCode (mkHandlerError 400 "gzip: invalid header") = 400
  /\ Header (req (Demo.env ["gzip"] (mkStream [] None)))
     = Header (Demo.request ["gzip"])
  /\ Body (req (Demo.env ["gzip"] (mkStream [] None)))
     = Body (Demo.request ["gzip"])
  /\ ContentLength (req (Demo.env ["gzip"] (mkStream [] None)))
     = ContentLength (Demo.request ["gzip"]).
Proof.
  split; [vm_compute; reflexivity|].
  apply (ServeHTTP_rejection_leaves_request Demo.library Demo.next
           Demo.provisioned
           (mkMiddleware (Some (mkMetrics 1 0 1 0%float {["gzip" := 1]})))
           (Demo.env ["gzip"] (mkStream Demo.plain None))).
  vm_compute. reflexivity.
Defined.

(** ** Metrics *)

(** C9: no invocation of [ServeHTTP], however it ends, changes
    [DecompressionTimings]; and [Provision] sets it to zero. *)
Theorem DecompressionTimings_never_written
    {W T : Type} (L : Library) (next : Env W -> T) (m : Middleware)
    (e : Env W) :
  DecompressionTimings <$> metrics (middlewareOf (ServeHTTP L next m e))
    = DecompressionTimings <$> metrics m
  /\ DecompressionTimings <$> metrics (Provision m) = Some 0%float.
Proof.
  split; [|reflexivity].
  unfold ServeHTTP.
  destruct (String.eqb _ _); [reflexivity|].
  destruct (metrics m) as [ms|] eqn:Hm; [|simpl; rewrite Hm; reflexivity].
  destruct (streams e !! Body (req e)) as [s|]; [|reflexivity].
  simpl. destruct (fault s) as [err|]; [reflexivity|].
  destruct (dispatch _ _ _ _) as [err|out [err|]]; reflexivity.
Qed.

(** What one returning invocation does to the three request counters. *)
Lemma ServeHTTP_counters {W T : Type} (L : Library) (next : Env W -> T)
    (m m' : Middleware) (ms : DecompressionMetrics) (e : Env W) :
  metrics m = Some ms ->
  after (ServeHTTP L next m e) = Some m' ->
  exists ms' : DecompressionMetrics,
    metrics m' = Some ms'
    /\ ((Header.Get (Header (req e)) "Content-Encoding" = "" /\ ms' = ms)
        \/ (Header.Get (Header (req e)) "Content-Encoding" <> ""
            /\ TotalRequests ms' = atomic_AddInt64 (TotalRequests ms) 1
            /\ ((SuccessfulRequests ms'
                   = atomic_AddInt64 (SuccessfulRequests ms) 1
                 /\ FailedRequests ms' = FailedRequests ms)
                \/ (SuccessfulRequests ms' = SuccessfulRequests ms
                    /\ FailedRequests ms'
                       = atomic_AddInt64 (FailedRequests ms) 1)))).
Proof.
  intros Hm. unfold ServeHTTP.
  destruct (String.eqb_spec (Header.Get (Header (req e)) "Content-Encoding") "")
    as [Hget|Hget].
  - intros [= <-]. exists ms. auto.
  - rewrite Hm.
    destruct (streams e !! Body (req e)) as [s|]; [|discriminate].
    simpl. destruct (fault s) as [err|].
    + intros [= <-]. eexists. split; [reflexivity|]. right. auto.
    + destruct (dispatch _ _ _ _) as [err|out [err|]]; intros [= <-];
        (eexists; split; [reflexivity|]; right; auto).
Qed.

Lemma balanced_step (ms ms' : DecompressionMetrics) :
  balanced ms ->
  TotalRequests ms' = atomic_AddInt64 (TotalRequests ms) 1 ->
  (SuccessfulRequests ms' = atomic_AddInt64 (SuccessfulRequests ms) 1
   /\ FailedRequests ms' = FailedRequests ms)
  \/ (SuccessfulRequests ms' = SuccessfulRequests ms
      /\ FailedRequests ms' = atomic_AddInt64 (FailedRequests ms) 1) ->
  balanced ms'.
Proof.
  unfold balanced, atomic_AddInt64. intros Hb Ht [[Hs Hf]|[Hs Hf]];
    rewrite Ht, Hs, Hf, <- Hb.
  - rewrite !wrap64_add_l. f_equal. lia.
  - rewrite wrap64_add_r, wrap64_add_l. f_equal. lia.
Qed.

Lemma reachable_balanced (m : Middleware) :
  reachable m ->
  exists ms : DecompressionMetrics, metrics m = Some ms /\ balanced ms.
Proof.
  induction 1 as [m0 | W T L next m m' e Hreach [ms [Hm Hb]] Hafter].
  - eexists. split; [reflexivity|]. reflexivity.
  - destruct (ServeHTTP_counters L next m m' ms e Hm Hafter)
      as [ms' [Hm' [[_ ->] | [_ [Ht Hsf]]]]].
    + exists ms. auto.
    + exists ms'. split; [exact Hm'|]. exact (balanced_step ms ms' Hb Ht Hsf).
Qed.

(** C6: take a middleware that has been provisioned and has served any
    number of requests one after the other.  Its counters satisfy
    [SuccessfulRequests + FailedRequests == TotalRequests] (on [int64]),
    and so do they after one more invocation that returns: an invocation
    without [Content-Encoding] leaves the metrics as they are, and any
    other adds one to the total and one to exactly one of the success and
    failure counters. *)
Theorem metrics_balanced_after_every_request
    {W T : Type} (L : Library) (next : Env W -> T) (m m' : Middleware)
    (e : Env W) :
  reachable m ->
  after (ServeHTTP L next m e) = Some m' ->
  exists ms ms' : DecompressionMetrics,
    metrics m = Some ms /\ balanced ms
    /\ metrics m' = Some ms' /\ balanced ms'
    /\ ((Header.Get (Header (req e)) "Content-Encoding" = "" /\ ms' = ms)
        \/ (Header.Get (Header (req e)) "Content-Encoding" <> ""
            /\ TotalRequests ms' = atomic_AddInt64 (TotalRequests ms) 1
            /\ ((SuccessfulRequests ms'
                   = atomic_AddInt64 (SuccessfulRequests ms) 1
                 /\ FailedRequests ms' = FailedRequests ms)
                \/ (SuccessfulRequests ms' = SuccessfulRequests ms
                    /\ FailedRequests ms'
                       = atomic_AddInt64 (FailedRequests ms) 1)))).
Proof.
  intros Hreach Hafter.
  destruct (reachable_balanced m Hreach) as [ms [Hm Hb]].
  destruct (ServeHTTP_counters L next m m' ms e Hm Hafter) as [ms' [Hm' Hstep]].
  destruct (reachable_balanced m'
              (reachable_ServeHTTP W T L next m m' e Hreach Hafter))
    as [ms'' [Hm'' Hb'']].
  assert (ms'' = ms') as -> by congruence.
  exists ms, ms'. auto.
Qed.

(** After provisioning, a rejected request and then a decoded one. *)
Lemma metrics_balanced_after_every_request_witness :
  exists ms ms' : DecompressionMetrics,
    Some (mkMetrics 1 0 1 0%float {["bz2" := 1]}) = Some ms /\ balanced ms
    /\ Some (mkMetrics 2 1 1 0%float {["bz2" := 2]}) = Some ms'
    /\ balanced ms'
    /\ ((Header.Get (Header (Demo.request ["bz2"])) "Content-Encoding" = ""
         /\ ms' = ms)
        \/ (Header.Get (Header (Demo.request ["bz2"])) "Content-Encoding" <> ""
            /\ TotalRequests ms' = atomic_AddInt64 (TotalRequests ms) 1
            /\ ((SuccessfulRequests ms'
                   = atomic_AddInt64 (SuccessfulRequests ms) 1
                 /\ FailedRequests ms' = FailedRequests ms)
                \/ (SuccessfulRequests ms' = SuccessfulRequests ms
                    /\ FailedRequests ms'
                       = atomic_AddInt64 (FailedRequests ms) 1)))).
Proof.
  apply (metrics_balanced_after_every_request Demo.library Demo.next
           (mkMiddleware (Some (mkMetrics 1 0 1 0%float {["bz2" := 1]})))
           (mkMiddleware (Some (mkMetrics 2 1 1 0%float {["bz2" := 2]})))
           (Demo.env ["bz2"] (mkStream (Demo.compress "bz2" Demo.plain) None))).
  - apply (reachable_ServeHTTP unit (Env unit) Demo.library Demo.next
             Demo.provisioned _
             (Demo.env ["bz2"] (mkStream [Byte.x01; Byte.x68] None))).
    + apply reachable_Provision.
    + vm_compute. reflexivity.
  - vm_compute. reflexivity.
Defined.

(** * Further properties of the handler *)

(** ** The metrics after one invocation *)

(** What a returning invocation leaves in the metrics struct, as a whole:
    nothing new without the header, and otherwise lines 69-75 followed by
    one of the two final increments. *)
Lemma ServeHTTP_metrics_step {W T : Type} (L : Library) (next : Env W -> T)
    (m m' : Middleware) (ms : DecompressionMetrics) (e : Env W) :
  metrics m = Some ms ->
  after (ServeHTTP L next m e) = Some m' ->
  (Header.Get (Header (req e)) "Content-Encoding" = "" /\ m' = m)
  \/ (Header.Get (Header (req e)) "Content-Encoding" <> ""
      /\ (m' = setMetrics (addFailed (counted (encodingOf L (req e)) ms))
          \/ m' = setMetrics
                    (addSuccessful (counted (encodingOf L (req e)) ms)))).
Proof.
  intros Hm. unfold ServeHTTP.
  destruct (String.eqb_spec (Header.Get (Header (req e)) "Content-Encoding") "")
    as [Hget|Hget].
  - intros [= <-]. left. auto.
  - rewrite Hm.
    destruct (streams e !! Body (req e)) as [s|]; [|discriminate].
    simpl. destruct (fault s) as [err|].
    + intros [= <-]. right. split; [exact Hget|]. left. reflexivity.
    + destruct (dispatch _ _ _ _) as [err|out [err|]]; intros [= <-];
        right; (split; [exact Hget|]); [left|left|right]; reflexivity.
Qed.

(** ** Rejections before the drain *)

(** X1: when reading the request body fails, the handler returns a 400
    carrying the read error whatever the token is (supported or not) and
    whatever the decoders would do: no decoder is consulted and [next] plays
    no part.  The total and failure counters are incremented, the success
    counter is not, and the bytes read before the error are dropped. *)
Theorem ServeHTTP_body_read_error_rejected
    {W T : Type} (L : Library) (next : Env W -> T) (m : Middleware)
    (ms : DecompressionMetrics) (e : Env W) (s : Stream) (readErr : error) :
  Header.Get (Header (req e)) "Content-Encoding" <> "" ->
  metrics m = Some ms ->
  streams e !! Body (req e) = Some s ->
  fault s = Some readErr ->
  let ms' := addFailed (counted (encodingOf L (req e)) ms) in
  ServeHTTP L next m e
    = Rejected (mkHandlerError 400 readErr) (setMetrics ms') (rejectedEnv e s)
  /\ TotalRequests ms' = atomic_AddInt64 (TotalRequests ms) 1
  /\ FailedRequests ms' = atomic_AddInt64 (FailedRequests ms) 1
  /\ SuccessfulRequests ms' = SuccessfulRequests ms.
Proof.
  intros Hget Hm Hs Hf ms'. split; [|repeat split].
  rewrite (ServeHTTP_encoded L next m ms e s Hget Hm Hs).
  simpl. rewrite Hf. reflexivity.
Qed.

(** At a well-formed gzip body whose transfer breaks off after the data. *)
Lemma ServeHTTP_body_read_error_rejected_witness :
  ServeHTTP Demo.library Demo.next Demo.provisioned
    (Demo.env ["gzip"]
       (mkStream (Demo.compress "gzip" Demo.plain) (Some "unexpected EOF")))
  = Rejected (mkHandlerError 400 "unexpected EOF")
      (mkMiddleware (Some (mkMetrics 1 0 1 0%float {["gzip" := 1]})))
      (Demo.env ["gzip"] (mkStream [] (Some "unexpected EOF"))).
Proof.
  etransitivity.
  - apply (ServeHTTP_body_read_error_rejected Demo.library Demo.next
             Demo.provisioned (mkMetrics 0 0 0 0%float ∅) _
             (mkStream (Demo.compress "gzip" Demo.plain)
                (Some "unexpected EOF")) "unexpected EOF").
    + discriminate.
    + reflexivity.
    + reflexivity.
    + reflexivity.
  - vm_compute. reflexivity.
Defined.

Lemma dispatch_ConstructionFails (L : Library) (token : string)
    (body : bytes) (err : error) (outer : option error) :
  ConstructionFails L token body err ->
  dispatch L token body outer = EarlyReturn err.
Proof.
  intros Hfail. unfold dispatch.
  destruct Hfail as [b er Hnew | b er Hnew]; simpl; rewrite Hnew; reflexivity.
Qed.

(** X2: with the token gzip or zstd, when building the decoder over the
    body fails, the handler returns a 400 carrying the construction error
    without draining anything and without consulting [next]; the failure
    counter is incremented and the success counter is not. *)
Theorem ServeHTTP_construction_error_rejected
    {W T : Type} (L : Library) (next : Env W -> T) (m : Middleware)
    (ms : DecompressionMetrics) (e : Env W) (s : Stream) (err : error) :
  ConstructionFails L (encodingOf L (req e)) (pending s) err ->
  metrics m = Some ms ->
  streams e !! Body (req e) = Some s ->
  fault s = None ->
  let ms' := addFailed (counted (encodingOf L (req e)) ms) in
  ServeHTTP L next m e
    = Rejected (mkHandlerError 400 err) (setMetrics ms') (rejectedEnv e s)
  /\ FailedRequests ms' = atomic_AddInt64 (FailedRequests ms) 1
  /\ SuccessfulRequests ms' = SuccessfulRequests ms.
Proof.
  intros Hfail Hm Hs Hf ms'. split; [|split; reflexivity].
  rewrite (ServeHTTP_encoded L next m ms e s); auto.
  - simpl. rewrite Hf, (dispatch_ConstructionFails L _ _ _ _ Hfail).
    reflexivity.
  - apply (encodingOf_nonempty L). destruct Hfail; discriminate.
Qed.

(** At [Content-Encoding: ZSTD] over bytes that do not start with the magic
    number. *)
Lemma ServeHTTP_construction_error_rejected_witness :
  ServeHTTP Demo.library Demo.next Demo.provisioned
    (Demo.env ["ZSTD"] (mkStream Demo.plain None))
  = Rejected (mkHandlerError 400 "invalid input: magic number mismatch")
      (mkMiddleware (Some (mkMetrics 1 0 1 0%float {["zstd" := 1]})))
      (Demo.env ["ZSTD"] (mkStream [] None)).
Proof.
  etransitivity.
  - apply (ServeHTTP_construction_error_rejected Demo.library Demo.next
             Demo.provisioned (mkMetrics 0 0 0 0%float ∅) _
             (mkStream Demo.plain None)
             "invalid input: magic number mismatch").
    + change (encodingOf Demo.library _) with "zstd".
      apply ConstructionFails_zstd. reflexivity.
    + reflexivity.
    + reflexivity.
    + reflexivity.
  - vm_compute. reflexivity.
Defined.

(** ** The per-encoding counters *)

Lemma countEncoding_dom (token : string) (ms : DecompressionMetrics) :
  dom (RequestsByCompression ms)
    ⊆ dom (RequestsByCompression (countEncoding token ms)).
Proof.
  unfold countEncoding. simpl.
  destruct (RequestsByCompression ms !! token) as [n|] eqn:Hlook; simpl.
  - rewrite Hlook. apply dom_insert_subseteq.
  - rewrite lookup_insert_eq, insert_insert_eq. apply dom_insert_subseteq.
Qed.

(** X3: every returning invocation on a request with a non-empty
    [Content-Encoding], forwarded or rejected, supported token or not, adds
    one to the counter filed under the lower-cased token (starting from zero
    when the token is new), leaves the counters of all other tokens as they
    were, and removes no entry. *)
Theorem ServeHTTP_counts_token
    {W T : Type} (L : Library) (next : Env W -> T) (m m' : Middleware)
    (ms : DecompressionMetrics) (e : Env W) :
  metrics m = Some ms ->
  Header.Get (Header (req e)) "Content-Encoding" <> "" ->
  after (ServeHTTP L next m e) = Some m' ->
  exists ms' : DecompressionMetrics,
    metrics m' = Some ms'
    /\ RequestsByCompression ms' !! encodingOf L (req e)
       = Some (atomic_AddInt64
                 (default 0 (RequestsByCompression ms !! encodingOf L (req e)))
                 1)
    /\ (forall other : string,
          encodingOf L (req e) <> other ->
          RequestsByCompression ms' !! other
            = RequestsByCompression ms !! other)
    /\ dom (RequestsByCompression ms) ⊆ dom (RequestsByCompression ms').
Proof.
  intros Hm Hget Hafter.
  destruct (ServeHTTP_metrics_step L next m m' ms e Hm Hafter)
    as [[Hempty _] | [_ [-> | ->]]]; [contradiction| |];
    (eexists; split; [reflexivity|]; simpl; split; [|split]).
  - apply (countEncoding_lookup _ (addTotal ms)).
  - intros other Hne. apply (countEncoding_other _ _ (addTotal ms) Hne).
  - apply (countEncoding_dom _ (addTotal ms)).
  - apply (countEncoding_lookup _ (addTotal ms)).
  - intros other Hne. apply (countEncoding_other _ _ (addTotal ms) Hne).
  - apply (countEncoding_dom _ (addTotal ms)).
Qed.

(** A second request with an unsupported token, after a first gzip one. *)
Lemma ServeHTTP_counts_token_witness :
  exists ms' : DecompressionMetrics,
    Some (mkMetrics 2 1 1 0%float {["gzip" := 1; "deflate" := 1]}) = Some ms'
    /\ RequestsByCompression ms' !! "deflate" = Some 1
    /\ (forall other : string,
          "deflate" <> other ->
          RequestsByCompression ms' !! other
            = ({["gzip" := 1]} : gmap string Z) !! other)
    /\ dom ({["gzip" := 1]} : gmap string Z) ⊆ dom (RequestsByCompression ms').
Proof.
  refine (ServeHTTP_counts_token Demo.library Demo.next
            (mkMiddleware (Some (mkMetrics 1 1 0 0%float {["gzip" := 1]})))
            (mkMiddleware
               (Some (mkMetrics 2 1 1 0%float {["gzip" := 1; "deflate" := 1]})))
            (mkMetrics 1 1 0 0%float {["gzip" := 1]})
            (Demo.env ["Deflate"] (mkStream Demo.plain None))
            eq_refl _ _).
  - discriminate.
  - vm_compute. reflexivity.
Defined.

Lemma sumCounts_empty : sumCounts ∅ = 0.
Proof. apply map_fold_empty. Qed.

Lemma sumCounts_insert_None (byc : gmap string Z) (k : string) (n : Z) :
  byc !! k = None -> sumCounts (<[k := n]> byc) = n + sumCounts byc.
Proof.
  intros Hk. unfold sumCounts.
  rewrite map_fold_insert_L; [reflexivity| |exact Hk].
  intros. lia.
Qed.

Lemma sumCounts_insert_Some (byc : gmap string Z) (k : string) (old n : Z) :
  byc !! k = Some old ->
  sumCounts (<[k := n]> byc) = n - old + sumCounts byc.
Proof.
  intros Hk.
  rewrite <- insert_delete_eq.
  rewrite sumCounts_insert_None by apply lookup_delete_eq.
  unfold sumCounts at 2.
  rewrite (map_fold_delete_L _ _ k old byc); [|intros; lia|exact Hk].
  fold (sumCounts (delete k byc)). lia.
Qed.

(** Lines 72-75 add one to the sum of the per-encoding counters. *)
Lemma sumCounts_countEncoding (token : string) (ms : DecompressionMetrics) :
  wrap64 (sumCounts (RequestsByCompression (countEncoding token ms)))
    = wrap64 (sumCounts (RequestsByCompression ms) + 1).
Proof.
  unfold countEncoding, atomic_AddInt64. simpl.
  destruct (RequestsByCompression ms !! token) as [n|] eqn:Hlook; simpl.
  - rewrite Hlook, (sumCounts_insert_Some _ _ n _ Hlook).
    replace (wrap64 (n + 1) - n + sumCounts (RequestsByCompression ms))
      with (wrap64 (n + 1) + (sumCounts (RequestsByCompression ms) - n))
      by lia.
    rewrite wrap64_add_l. f_equal. lia.
  - rewrite lookup_insert_eq, insert_insert_eq.
    rewrite (sumCounts_insert_None _ _ _ Hlook).
    rewrite wrap64_add_l. f_equal. lia.
Qed.

(** X4: in a middleware that has been provisioned and has then served any
    number of requests one after the other, the per-encoding counters add
    up to the total counter (as [int64] values): every counted request is
    filed under exactly one token. *)
Theorem RequestsByCompression_sums_to_total (m : Middleware) :
  reachable m ->
  exists ms : DecompressionMetrics,
    metrics m = Some ms
    /\ wrap64 (sumCounts (RequestsByCompression ms)) = TotalRequests ms.
Proof.
  induction 1 as [m0 | W T L next m m' e Hreach [ms [Hm Hsum]] Hafter].
  - eexists. split; [reflexivity|]. simpl. rewrite sumCounts_empty.
    reflexivity.
  - assert (Hstep : wrap64 (sumCounts (RequestsByCompression
                                         (counted (encodingOf L (req e)) ms)))
                    = atomic_AddInt64 (TotalRequests ms) 1).
    { unfold counted. rewrite sumCounts_countEncoding. simpl.
      unfold atomic_AddInt64. rewrite <- Hsum, wrap64_add_l. reflexivity. }
    destruct (ServeHTTP_metrics_step L next m m' ms e Hm Hafter)
      as [[_ ->] | [_ [-> | ->]]].
    + exists ms. auto.
    + eexists. split; [reflexivity|]. exact Hstep.
    + eexists. split; [reflexivity|]. exact Hstep.
Qed.

(** After provisioning and two requests, one rejected and one unsupported. *)
Lemma RequestsByCompression_sums_to_total_witness :
  exists ms : DecompressionMetrics,
    Some (mkMetrics 2 0 2 0%float {["bz2" := 1; "deflate" := 1]}) = Some ms
    /\ wrap64 (sumCounts (RequestsByCompression ms)) = TotalRequests ms.
Proof.
  apply (RequestsByCompression_sums_to_total
           (mkMiddleware
              (Some (mkMetrics 2 0 2 0%float {["bz2" := 1; "deflate" := 1]})))).
  apply (reachable_ServeHTTP unit (Env unit) Demo.library Demo.next
           (mkMiddleware (Some (mkMetrics 1 0 1 0%float {["bz2" := 1]}))) _
           (Demo.env ["deflate"] (mkStream Demo.plain None))).
  - apply (reachable_ServeHTTP unit (Env unit) Demo.library Demo.next
             Demo.provisioned _
             (Demo.env ["bz2"] (mkStream [Byte.x01; Byte.x68] None))).
    + apply reachable_Provision.
    + vm_compute. reflexivity.
  - vm_compute. reflexivity.
Defined.

(** ** The downstream handler *)

(** Replaces the result of [next] in an outcome. *)
Lemma ServeHTTP_unfold_observe {W T : Type} (L : Library) (next : Env W -> T)
    (m : Middleware) (e : Env W) :
  ServeHTTP L next m e
    = match ServeHTTP L observe m e with
      | Rejected he m' e' => Rejected he m' e'
      | Forwarded m' e' => Forwarded m' (next e')
      | Panicked m' e' => Panicked m' e'
      end.
Proof.
  unfold ServeHTTP.
  destruct (String.eqb _ _); [reflexivity|].
  destruct (metrics m) as [ms|]; [|reflexivity].
  destruct (streams e !! Body (req e)) as [s|]; [|reflexivity].
  simpl. destruct (fault s) as [err|]; [reflexivity|].
  destruct (dispatch _ _ _ _) as [err|out [err|]]; reflexivity.
Qed.


(** ** Panics *)

Lemma wrap64_range (z : Z) : - 2 ^ 63 <= wrap64 z < 2 ^ 63.
Proof.
  unfold wrap64.
  pose proof (Z.mod_pos_bound (z + 2 ^ 63) (2 ^ 64) ltac:(lia)). lia.
Qed.

Lemma atomic_AddInt64_moves (v : Z) :
  - 2 ^ 63 <= v < 2 ^ 63 -> atomic_AddInt64 v 1 <> v.
Proof.
  intros Hv. destruct (Z.eq_dec v (2 ^ 63 - 1)) as [->|Hmax].
  - vm_compute. discriminate.
  - rewrite atomic_AddInt64_small by lia. lia.
Qed.

(** X6: the handler panics in exactly two situations, both on a request with
    a non-empty [Content-Encoding]: the [metrics] pointer is nil, or the
    request's [Body] refers to no stream (a nil [Body]).  With the header
    empty, or with metrics and body in place, it always returns. *)
Theorem ServeHTTP_panics_exactly_when
    {W T : Type} (L : Library) (next : Env W -> T) (m : Middleware)
    (e : Env W) :
  after (ServeHTTP L next m e) = None
  <-> Header.Get (Header (req e)) "Content-Encoding" <> ""
      /\ (metrics m = None \/ streams e !! Body (req e) = None).
Proof.
  unfold ServeHTTP.
  destruct (String.eqb_spec (Header.Get (Header (req e)) "Content-Encoding") "")
    as [Hget|Hget].
  - simpl. split; [discriminate|]. intros [Hne _]. contradiction.
  - destruct (metrics m) as [ms|]; [|simpl; split; auto].
    destruct (streams e !! Body (req e)) as [s|].
    + simpl. destruct (fault s) as [err|].
      * simpl. split; [discriminate|]. intros [_ [Hn|Hn]]; discriminate.
      * destruct (dispatch _ _ _ _) as [err|out [err|]]; simpl;
          (split; [discriminate|]); intros [_ [Hn|Hn]]; discriminate.
    + simpl. split; auto.
Qed.

(** X7: a panic on a nil [Body] comes after lines 69-75 and before either
    final increment: the total counter and the counter of the token have
    been incremented, the success and failure counters have not, and the
    request is untouched.  Counters that were in balance are left out of
    balance, [SuccessfulRequests + FailedRequests] now differing from
    [TotalRequests]. *)
Theorem ServeHTTP_nil_body_panic_unbalances
    {W T : Type} (L : Library) (next : Env W -> T) (m : Middleware)
    (ms : DecompressionMetrics) (e : Env W) :
  Header.Get (Header (req e)) "Content-Encoding" <> "" ->
  metrics m = Some ms ->
  streams e !! Body (req e) = None ->
  balanced ms ->
  let ms' := counted (encodingOf L (req e)) ms in
  ServeHTTP L next m e = Panicked (setMetrics ms') e
  /\ TotalRequests ms' = atomic_AddInt64 (TotalRequests ms) 1
  /\ SuccessfulRequests ms' = SuccessfulRequests ms
  /\ FailedRequests ms' = FailedRequests ms
  /\ ~ balanced ms'.
Proof.
  intros Hget Hm Hs Hb ms'. split; [|repeat split].
  - unfold ServeHTTP. apply String.eqb_neq in Hget.
    rewrite Hget, Hm, Hs. reflexivity.
  - unfold balanced in *. simpl. rewrite Hb. intros Heq.
    apply (atomic_AddInt64_moves (TotalRequests ms)); [|congruence].
    rewrite <- Hb. apply wrap64_range.
Qed.

(** At a provisioned middleware and a gzip request without a body stream. *)
Lemma ServeHTTP_nil_body_panic_unbalances_witness :
  ServeHTTP Demo.library Demo.next Demo.provisioned
    (mkEnv (Demo.request ["gzip"]) ∅ tt)
  = Panicked (mkMiddleware (Some (mkMetrics 1 0 0 0%float {["gzip" := 1]})))
      (mkEnv (Demo.request ["gzip"]) ∅ tt).
Proof.
  etransitivity.
  - apply (ServeHTTP_nil_body_panic_unbalances Demo.library Demo.next
             Demo.provisioned (mkMetrics 0 0 0 0%float ∅)
             (mkEnv (Demo.request ["gzip"]) ∅ tt)).
    + discriminate.
    + reflexivity.
    + reflexivity.
    + reflexivity.
  - vm_compute. reflexivity.
Defined.

(** With metrics and body in place the handler returns. *)
Lemma ServeHTTP_returns_when_ready {W T : Type} (L : Library)
    (next : Env W -> T) (m : Middleware) (ms : DecompressionMetrics)
    (e : Env W) (s : Stream) :
  metrics m = Some ms ->
  streams e !! Body (req e) = Some s ->
  is_Some (after (ServeHTTP L next m e)).
Proof.
  intros Hm Hs.
  destruct (String.eqb_spec (Header.Get (Header (req e)) "Content-Encoding") "")
    as [Hget|Hget].
  - unfold ServeHTTP. apply String.eqb_eq in Hget. rewrite Hget. simpl. eauto.
  - rewrite (ServeHTTP_encoded L next m ms e s Hget Hm Hs). simpl.
    destruct (fault s) as [err|]; [simpl; eauto|].
    destruct (dispatch _ _ _ _) as [err|out [err|]]; simpl; eauto.
Qed.

(** X8: the middleware that [parseCaddyfile] or [CaddyModule().New] hands
    out has a nil [metrics] pointer, and neither [UnmarshalCaddyfile] nor
    [Validate] sets it: until [Provision] has run, every request with a
    non-empty [Content-Encoding] panics, leaving middleware and request as
    they were.  Once [Provision] has run, a request that has a body stream
    is always answered by a return. *)
Theorem ServeHTTP_needs_Provision
    {Helper Dispenser W T : Type} (h : Helper) (d : Dispenser) (L : Library)
    (next : Env W -> T) (e : Env W) :
  Header.Get (Header (req e)) "Content-Encoding" <> "" ->
  let parsed := fst (parseCaddyfile h) in
  let unmarshalled := fst (fst (UnmarshalCaddyfile parsed d)) in
  snd (parseCaddyfile h) = None
  /\ snd (UnmarshalCaddyfile parsed d) = None
  /\ Validate unmarshalled = None
  /\ ServeHTTP L next unmarshalled e = Panicked unmarshalled e
  /\ ServeHTTP L next CaddyModule_New e = Panicked CaddyModule_New e
  /\ (is_Some (streams e !! Body (req e)) ->
      is_Some (after (ServeHTTP L next (Provision unmarshalled) e))).
Proof.
  intros Hget parsed unmarshalled.
  assert (Hpanic : forall m0 : Middleware,
             metrics m0 = None -> ServeHTTP L next m0 e = Panicked m0 e).
  { intros m0 Hm0. unfold ServeHTTP. apply String.eqb_neq in Hget.
    rewrite Hget, Hm0. reflexivity. }
  repeat split; try (apply Hpanic; reflexivity).
  intros [s Hs].
  exact (ServeHTTP_returns_when_ready L next (Provision unmarshalled) _ e s
           eq_refl Hs).
Qed.

(** At a gzip request, for a directive without arguments. *)
Lemma ServeHTTP_needs_Provision_witness :
  ServeHTTP Demo.library Demo.next CaddyModule_New
    (Demo.env ["gzip"] (mkStream Demo.plain None))
  = Panicked CaddyModule_New (Demo.env ["gzip"] (mkStream Demo.plain None)).
Proof.
  apply (ServeHTTP_needs_Provision tt (@nil string) Demo.library Demo.next
           (Demo.env ["gzip"] (mkStream Demo.plain None))).
  discriminate.
Defined.

(** ** The request that is forwarded *)

(** A forward of a request with a non-empty [Content-Encoding] comes from
    the end of the function: the body was read cleanly and lines 118-121
    ran on some [decompressed]. *)
Lemma ServeHTTP_forward_inv {W : Type} (L : Library) (m m' : Middleware)
    (e e' : Env W) :
  Header.Get (Header (req e)) "Content-Encoding" <> "" ->
  ServeHTTP L observe m e = Forwarded m' e' ->
  exists (ms : DecompressionMetrics) (s : Stream) (out : bytes),
    metrics m = Some ms
    /\ streams e !! Body (req e) = Some s
    /\ fault s = None
    /\ m' = setMetrics (addSuccessful (counted (encodingOf L (req e)) ms))
    /\ e' = forwardedEnv e s out.
Proof.
  intros Hget. unfold ServeHTTP.
  pose proof Hget as Hneq. apply String.eqb_neq in Hneq. rewrite Hneq.
  destruct (metrics m) as [ms|]; [|discriminate].
  destruct (streams e !! Body (req e)) as [s|] eqn:Hs; [|discriminate].
  simpl. destruct (fault s) as [err|] eqn:Hf; [discriminate|].
  destruct (dispatch _ _ _ _) as [err|out [err|]]; try discriminate.
  intros [= <- <-]. exists ms, s, out.
  unfold forwardedEnv, drained, observe. rewrite Hf. auto.
Qed.

(** A forward of a request without [Content-Encoding] is the pass-through. *)
Lemma ServeHTTP_passthrough_inv {W : Type} (L : Library) (m m' : Middleware)
    (e e' : Env W) :
  Header.Get (Header (req e)) "Content-Encoding" = "" ->
  ServeHTTP L observe m e = Forwarded m' e' ->
  m' = m /\ e' = e.
Proof.
  intros Hget. unfold ServeHTTP. rewrite Hget. simpl.
  intros [= <- <-]. auto.
Qed.

(** X9: whenever a request with a non-empty [Content-Encoding] is forwarded
    (also when the decoder stopped early), the request [next] receives is
    consistent with itself: its [Body] is a reader distinct from the one
    that came in, it yields some bytes [out] and then ends cleanly, its
    [ContentLength] is the number of those bytes, and it carries no
    [Content-Encoding]. *)
Theorem ServeHTTP_forwarded_request_consistent
    {W : Type} (L : Library) (m m' : Middleware) (e e' : Env W) :
  Header.Get (Header (req e)) "Content-Encoding" <> "" ->
  ServeHTTP L observe m e = Forwarded m' e' ->
  exists out : bytes,
    streams e' !! Body (req e') = Some (mkStream out None)
    /\ ContentLength (req e') = Z.of_nat (length out)
    /\ Header.Get (Header (req e')) "Content-Encoding" = ""
    /\ Body (req e') <> Body (req e).
Proof.
  intros Hget Hfwd.
  destruct (ServeHTTP_forward_inv L m m' e e' Hget Hfwd)
    as (ms & s & out & _ & Hs & _ & _ & ->).
  exists out. split; [apply lookup_insert_eq|]. split; [reflexivity|]. split.
  - unfold Header.Get, forwardedEnv, rewriteRequest, Header.Del. simpl.
    rewrite lookup_delete_eq. reflexivity.
  - simpl. intros Heq.
    apply (forwardedEnv_fresh e s Hs). rewrite Heq.
    apply elem_of_dom. eauto.
Qed.

(** At a gzip request whose stream is cut short: one byte goes through. *)
Lemma ServeHTTP_forwarded_request_consistent_witness :
  exists out : bytes,
    ({[1%positive := mkStream [] None; 2%positive := mkStream [Byte.x68] None]}
       : gmap positive Stream) !! 2%positive
    = Some (mkStream out None)
    /\ 1 = Z.of_nat (length out)
    /\ Header.Get {["Content-Type" := ["application/json"]]} "Content-Encoding"
       = ""
    /\ 2%positive <> 1%positive.
Proof.
  refine (ServeHTTP_forwarded_request_consistent Demo.library
            Demo.provisioned
            (mkMiddleware (Some (mkMetrics 1 1 0 0%float {["gzip" := 1]})))
            (Demo.env ["gzip"]
               (mkStream [Byte.x1f; Byte.x8b; Byte.x01; Byte.x68; Byte.x01]
                  None))
            (mkEnv
               (mkRequest {["Content-Type" := ["application/json"]]}
                  2%positive 1)
               {[1%positive := mkStream [] None;
                 2%positive := mkStream [Byte.x68] None]}
               tt)
            _ _).
  - discriminate.
  - vm_compute. reflexivity.
Defined.

(** X10: whenever a request is forwarded, with or without decoding, every
    header other than [Content-Encoding] reaches [next] with the values it
    came with.  That includes a [Content-Length] header: line 121 rewrites
    the [ContentLength] field of the request, not the header map. *)
Theorem ServeHTTP_other_headers_preserved
    {W : Type} (L : Library) (m m' : Middleware) (e e' : Env W)
    (key : string) :
  ServeHTTP L observe m e = Forwarded m' e' ->
  key <> "Content-Encoding" ->
  Header (req e') !! key = Header (req e) !! key.
Proof.
  intros Hfwd Hkey.
  destruct (String.eqb_spec (Header.Get (Header (req e)) "Content-Encoding") "")
    as [Hget|Hget].
  - destruct (ServeHTTP_passthrough_inv L m m' e e' Hget Hfwd) as [_ ->].
    reflexivity.
  - destruct (ServeHTTP_forward_inv L m m' e e' Hget Hfwd)
      as (ms & s & out & _ & _ & _ & _ & ->).
    simpl. unfold Header.Del. apply lookup_delete_ne. congruence.
Qed.

(** At a decoded gzip request: [Content-Type] is still there. *)
Lemma ServeHTTP_other_headers_preserved_witness :
  ({["Content-Type" := ["application/json"]]} : gmap string (list string))
    !! "Content-Type"
  = Header (Demo.request ["gzip"]) !! "Content-Type".
Proof.
  refine (ServeHTTP_other_headers_preserved Demo.library Demo.provisioned
            (mkMiddleware (Some (mkMetrics 1 1 0 0%float {["gzip" := 1]})))
            (Demo.env ["gzip"] (mkStream (Demo.compress "gzip" Demo.plain) None))
            (mkEnv
               (mkRequest {["Content-Type" := ["application/json"]]}
                  2%positive 2)
               {[1%positive := mkStream [] None;
                 2%positive := mkStream Demo.plain None]}
               tt)
            "Content-Type" _ _).
  - vm_compute. reflexivity.
  - discriminate.
Defined.

(** ** The stream store *)



(** ** Two instances in a row *)

(** X12: when a request has been decoded by one instance of the middleware
    and the downstream handler is a second instance, the second one passes
    the request on as it is and counts nothing: a body is decoded once, by
    the first instance that sees the header. *)
Theorem ServeHTTP_twice_decodes_once
    {W T : Type} (L : Library) (next : Env W -> T) (m1 m1' m2 : Middleware)
    (e e' : Env W) :
  Header.Get (Header (req e)) "Content-Encoding" <> "" ->
  ServeHTTP L observe m1 e = Forwarded m1' e' ->
  ServeHTTP L (ServeHTTP L next m2) m1 e
    = Forwarded m1' (Forwarded m2 (next e')).
Proof.
  intros Hget Hfwd.
  rewrite (ServeHTTP_unfold_observe L (ServeHTTP L next m2)), Hfwd.
  f_equal.
  destruct (ServeHTTP_forward_inv L m1 m1' e e' Hget Hfwd)
    as (ms & s & out & _ & _ & _ & _ & ->).
  unfold ServeHTTP at 1.
  replace (Header.Get (Header (req (forwardedEnv e s out))) "Content-Encoding")
    with "".
  - reflexivity.
  - unfold Header.Get, forwardedEnv, rewriteRequest, Header.Del. simpl.
    rewrite lookup_delete_eq. reflexivity.
Qed.

(** At a bz2 request passing two provisioned instances. *)
Lemma ServeHTTP_twice_decodes_once_witness :
  ServeHTTP Demo.library (ServeHTTP Demo.library Demo.next Demo.provisioned)
    Demo.provisioned
    (Demo.env ["bz2"] (mkStream (Demo.compress "bz2" Demo.plain) None))
  = Forwarded
      (mkMiddleware (Some (mkMetrics 1 1 0 0%float {["bz2" := 1]})))
      (Forwarded Demo.provisioned
         (Demo.next
            (mkEnv
               (mkRequest {["Content-Type" := ["application/json"]]}
                  2%positive 2)
               {[1%positive := mkStream [] None;
                 2%positive := mkStream Demo.plain None]}
               tt))).
Proof.
  apply (ServeHTTP_twice_decodes_once Demo.library Demo.next).
  - discriminate.
  - vm_compute. reflexivity.
Defined.

(** ** Letter case of the token *)

Lemma lowerByte_not_upper (c : ascii) :
  GoStrings.isUpper (GoStrings.lowerByte c) = false.
Proof. destruct c as [[] [] [] [] [] [] [] []]; reflexivity. Qed.

Lemma mapBytes_lowerByte_no_upper (s : string) :
  GoStrings.hasUpper s = false ->
  GoStrings.mapBytes GoStrings.lowerByte s = s.
Proof.
  induction s as [|c s IH]; simpl; [reflexivity|].
  intros Hup. apply orb_false_iff in Hup as [Hc Hs].
  rewrite (IH Hs). unfold GoStrings.lowerByte. rewrite Hc. reflexivity.
Qed.

Lemma hasUpper_mapBytes_lowerByte (s : string) :
  GoStrings.hasUpper (GoStrings.mapBytes GoStrings.lowerByte s) = false.
Proof.
  induction s as [|c s IH]; simpl; [reflexivity|].
  rewrite lowerByte_not_upper, IH. reflexivity.
Qed.

(** On a string of ASCII bytes [strings.ToLower] is the byte-wise
    lower-casing, whichever of its two ASCII branches is taken. *)
Lemma ToLower_ascii (u : string -> string) (s : string) :
  GoStrings.isASCII s = true ->
  GoStrings.ToLower u s = GoStrings.mapBytes GoStrings.lowerByte s.
Proof.
  intros Hascii. unfold GoStrings.ToLower. rewrite Hascii.
  destruct (GoStrings.hasUpper s) eqn:Hup; [reflexivity|].
  symmetry. apply mapBytes_lowerByte_no_upper, Hup.
Qed.

(** X13: the token is matched without regard to letter case.  Two requests
    whose [Content-Encoding] values are ASCII and differ only in the case of
    their letters are counted under the same key and sent to the same case
    of the [switch]; that key contains no upper-case letter, so a token is
    never filed under two spellings. *)
Theorem encodingOf_case_insensitive
    (L : Library) (r1 r2 : Request) :
  let h1 := Header.Get (Header r1) "Content-Encoding" in
  let h2 := Header.Get (Header r2) "Content-Encoding" in
  GoStrings.isASCII h1 = true ->
  GoStrings.isASCII h2 = true ->
  GoStrings.mapBytes GoStrings.lowerByte h1
    = GoStrings.mapBytes GoStrings.lowerByte h2 ->
  encodingOf L r1 = encodingOf L r2
  /\ GoStrings.hasUpper (encodingOf L r1) = false
  /\ (forall (body : bytes) (err : option error),
        dispatch L (encodingOf L r1) body err
        = dispatch L (encodingOf L r2) body err)
  /\ (forall ms : DecompressionMetrics,
        counted (encodingOf L r1) ms = counted (encodingOf L r2) ms).
Proof.
  intros h1 h2 Ha1 Ha2 Heq.
  assert (Htok : encodingOf L r1 = encodingOf L r2).
  { unfold encodingOf. fold h1 h2.
    rewrite (ToLower_ascii _ h1 Ha1), (ToLower_ascii _ h2 Ha2). exact Heq. }
  split; [exact Htok|]. split.
  - unfold encodingOf. fold h1. rewrite (ToLower_ascii _ h1 Ha1).
    apply hasUpper_mapBytes_lowerByte.
  - rewrite Htok. auto.
Qed.

(** At the spellings [GZip] and [gzip]. *)
Lemma encodingOf_case_insensitive_witness :
  encodingOf Demo.library (Demo.request ["GZip"])
  = encodingOf Demo.library (Demo.request ["gzip"]).
Proof.
  apply (encodingOf_case_insensitive Demo.library
           (Demo.request ["GZip"]) (Demo.request ["gzip"]));
    reflexivity.
Defined.
